(** * saas.api.backend: pass-through views to the payment processor

    A shallow embedding of [saas/api/backend.py]: the two REST views
    [RetrieveBankAPIView] and [PaymentMethodDetailAPIView].  The views are
    glue: each one calls a method of the organization (or of the broker's
    processor backend) and wraps the result (or the exception) for the HTTP
    layer.  The organization model, the processor backend, the serializers
    and the web framework are collaborators; they appear here as an interface
    ([Collaborators]) over which every handler is parametric. *)

From Stdlib Require Import ZArith Ascii String.
From stdpp Require Import base strings gmap list.

Local Open Scope string_scope.
Local Open Scope Z_scope.

(** ** Python values *)

(** The JSON-like values that travel through the views.  A dictionary passed
    to [Response] is a [gmap string value]; a dictionary nested inside a
    value keeps its items as a list. *)
#[warnings="-register-all"]
Inductive value :=
| VNone
| VBool (b : bool)
| VInt (n : Z)
| VStr (s : string)
| VList (items : list value)
| VDict (items : list (string * value)).

Abbreviation dict := (gmap string value).

(** Python's truth value testing, as used by [if x:]. *)
Definition truthy (v : value) : bool :=
  match v with
  | VNone => false
  | VBool b => b
  | VInt n => negb (n =? 0)
  | VStr s => negb (String.eqb s "")
  | VList items => match items with [] => false | _ => true end
  | VDict items => match items with [] => false | _ => true end
  end.

(** [d.update({k: v})] on a dictionary. *)
Definition dict_update (d : dict) (k : string) (v : value) : dict := <[k := v]> d.

(** [str.lower()] on the ASCII range (HTTP method names are ASCII). *)
Definition ascii_lower (c : ascii) : ascii :=
  let n := nat_of_ascii c in
  if (Nat.leb 65 n && Nat.leb n 90)%bool then ascii_of_nat (n + 32) else c.

Fixpoint lower (s : string) : string :=
  match s with
  | EmptyString => EmptyString
  | String c rest => String (ascii_lower c) (lower rest)
  end.

(** [x in (a, b, ...)] on strings. *)
Definition str_in (x : string) (xs : list string) : bool :=
  existsb (String.eqb x) xs.

(** ** Requests, responses, exceptions *)

Record Organization := { slug : string }.
Record User := { username : string }.

(** [request.query_params] is read through [.get(key, default)] only; the map
    holds, for each key present in the query string, the value that [get]
    yields for it. *)
Record Request := {
  method : string;
  query_params : gmap string string;
  data : value;
  user : User
}.

Definition query_get (qp : gmap string string) (key : string) (default : value) : value :=
  match qp !! key with
  | Some s => VStr s
  | None => default
  end.

(** A view instance: [self.organization] (resolved by [OrganizationMixin]
    from the URL) and [self.request]. *)
Record View := {
  organization : Organization;
  request : Request
}.

(** [self.request], for the handlers that also bind a [request] argument. *)
Definition self_request (self : View) : Request := request self.

Definition HTTP_200_OK : Z := 200.
Definition HTTP_400_BAD_REQUEST : Z := 400.
Definition HTTP_500_INTERNAL_SERVER_ERROR : Z := 500.

Record Response := {
  resp_data : dict;
  status : Z
}.

(** [Response(data)] : the status defaults to 200. *)
Definition Response_ (d : dict) : Response :=
  {| resp_data := d; status := HTTP_200_OK |}.

(** Modelled from the spec: the exceptions of the processor and organization
    layer ([saas.backends] is not among the sources).  [ProcessorError] means
    that the external payment processor rejected or failed the operation and
    carries the processor's message; every other failure of that layer is a
    [BackendFailure]. *)
Inductive backend_error :=
| ProcessorError (reason : string)
| BackendFailure (cause : string).

(** What a handler can raise: a [rest_framework] validation error with its
    [detail], or an exception of the backend that nobody caught. *)
Inductive exn :=
| ValidationErrorExc (detail : value)
| Uncaught (e : backend_error).

(** [ValidationError(detail)]: the framework coerces a detail that is neither
    a list nor a dict into a one-element list. *)
Definition ValidationError (detail : value) : exn :=
  match detail with
  | VList _ | VDict _ => ValidationErrorExc detail
  | _ => ValidationErrorExc (VList [detail])
  end.

Inductive result (E A : Type) :=
| Ok (a : A)
| Raise (e : E).
Arguments Ok {E A} a.
Arguments Raise {E A} e.

(** Modelled from the spec: the status the web framework gives to an
    exception that leaves a handler (section 7): a validation error is the
    client's fault (400), anything else that was not caught is a server
    fault (500). *)
Definition status_code (e : exn) : Z :=
  match e with
  | ValidationErrorExc _ => HTTP_400_BAD_REQUEST
  | Uncaught _ => HTTP_500_INTERNAL_SERVER_ERROR
  end.

Definition http_status (r : result exn Response) : Z :=
  match r with
  | Ok resp => status resp
  | Raise e => status_code e
  end.

(** ** Collaborators *)

(** A serializer class: [is_valid] on the request data either gives
    [validated_data] or [errors]. *)
Record Serializer := {
  run_validation : value → bool → result value dict
}.

(** The calls a handler makes on its collaborators, in the order made. *)
Inductive call :=
| retrieve_bank_call (self : Organization)
| retrieve_card_call (self : Organization)
| update_card_call (self : Organization) (token : value) (actor : User)
| delete_card_call (self : Organization)
| get_broker_call
| get_payment_context_call (backend_of subscriber provider broker : Organization).

(** The organization model, [get_broker], the processor backend and the two
    serializer classes.  Every method runs on the processor-side state and
    may change it, and either returns or raises. *)
Record Collaborators := {
  state : Type;
  retrieve_bank : Organization → state → result backend_error dict * state;
  retrieve_card : Organization → state → result backend_error dict * state;
  update_card :
    Organization → value → User → state → result backend_error dict * state;
  delete_card : Organization → state → result backend_error () * state;
  get_broker : state → result backend_error Organization * state;
  get_payment_context :
    Organization → Organization → Organization → Organization →
    state → result backend_error value * state;
  CardSerializer : Serializer;
  CardTokenSerializer : Serializer
}.

(** ** The handler monad: state, call log and exceptions *)

Section Handler.
Context {C : Collaborators}.

Record world := {
  store : state C;
  calls : list call
}.

Definition M (A : Type) : Type := world → result exn A * world.

Definition ret {A} (a : A) : M A := fun w => (Ok a, w).

Definition bind {A B} (m : M A) (k : A → M B) : M B :=
  fun w =>
    match m w with
    | (Ok a, w') => k a w'
    | (Raise e, w') => (Raise e, w')
    end.

Definition raise {A} (e : exn) : M A := fun w => (Raise e, w).

(** A call on a collaborator: logged, run on the store; an exception of
    the callee travels up unless somebody catches it. *)
Definition invoke {A} (c : call)
    (f : state C → result backend_error A * state C) : M A :=
  fun w =>
    let '(r, s') := f (store w) in
    let w' := {| store := s'; calls := calls w ++ [c] |} in
    match r with
    | Ok a => (Ok a, w')
    | Raise e => (Raise (Uncaught e), w')
    end.

(** [try: body / except ProcessorError as err: handler(err)]. *)
Definition try_except_ProcessorError {A} (body : M A) (handler : string → M A) : M A :=
  fun w =>
    match body w with
    | (Raise (Uncaught (ProcessorError err)), w') => handler err w'
    | other => other
    end.

(** [serializer.is_valid(raise_exception=True)] followed by
    [serializer.validated_data]. *)
Definition is_valid (cls : Serializer) (d : value) (partial : bool) : M dict :=
  match run_validation cls d partial with
  | Ok validated_data => ret validated_data
  | Raise errors => raise (ValidationError errors)
  end.
End Handler.

Arguments world : clear implicits.
Arguments M : clear implicits.

Declare Scope handler_scope.
Delimit Scope handler_scope with handler.
Notation "'let*' x ':=' m 'in' k" := (bind m (fun x => k))
  (at level 10, x name, m at level 100, k at level 200) : handler_scope.
Notation "'run' m 'in' k" := (bind m (fun _ => k))
  (at level 10, m at level 100, k at level 200) : handler_scope.

(** The translation marker [_] of [saas.compat].

    Modelled from the spec: [gettext_lazy] is not among the sources; the
    spec's responses carry the message text itself, so [_] gives back the
    message it is applied to. *)
Definition gettext_lazy (msgid : string) : string := msgid.

(** ** The views *)

Module RetrieveBankAPIView.
Section View.
Context {C : Collaborators}.
Local Open Scope handler_scope.

Definition retrieve (self : View) (request : Request) : M C Response :=
  let* bank := invoke (retrieve_bank_call (organization self))
                      (retrieve_bank C (organization self)) in
  ret (Response_ bank).

(** [RetrieveAPIView.get] hands the request to [retrieve]. *)
Definition get (self : View) : M C Response := retrieve self (request self).
End View.
End RetrieveBankAPIView.

Module PaymentMethodDetailAPIView.
Section View.
Context {C : Collaborators}.
Local Open Scope handler_scope.

Definition serializer_class : Serializer := CardSerializer C.

Definition get_serializer_class (self : View) : Serializer :=
  if str_in (lower (method (self_request self))) ["put"]
  then CardTokenSerializer C
  else serializer_class.

Definition destroy (self : View) (request : Request) : M C Response :=
  run invoke (delete_card_call (organization self))
             (delete_card C (organization self)) in
  ret {| resp_data :=
           {[ "detail" :=
                VStr (gettext_lazy "Your credit card is no longer on file with us.") ]};
         status := HTTP_200_OK |}.

Definition retrieve (self : View) (request : Request) : M C Response :=
  let* resp_data := invoke (retrieve_card_call (organization self))
                           (retrieve_card C (organization self)) in
  if truthy (query_get (query_params request) "update" (VBool false)) then
    let* broker := invoke get_broker_call (get_broker C) in
    let* context :=
      invoke (get_payment_context_call broker (organization self) broker broker)
             (get_payment_context C broker (organization self) broker broker) in
    ret (Response_ (dict_update resp_data "processor" context))
  else
    ret (Response_ resp_data).

Definition update (self : View) (request : Request) (partial : bool) : M C Response :=
  let* validated_data :=
    is_valid (get_serializer_class self) (data request) partial in
  let token := default VNone (validated_data !! "token") in
  let* new_card :=
    try_except_ProcessorError
      (invoke (update_card_call (organization self) token (user (self_request self)))
              (update_card C (organization self) token (user (self_request self))))
      (fun err => raise (ValidationError (VStr err))) in
  ret (Response_
         (dict_update new_card "detail"
            (VStr (gettext_lazy "Your credit card on file was sucessfully updated.")))).

(** The entry points: the generic view hands GET to [retrieve], PUT to
    [update] (with [partial] left at its default) and DELETE to
    [destroy]. *)
Definition get (self : View) : M C Response := retrieve self (request self).
Definition put (self : View) : M C Response := update self (request self) false.
Definition delete (self : View) : M C Response := destroy self (request self).
End View.
End PaymentMethodDetailAPIView.

(** ** The read views of the data model *)

Record BankAccount := {
  bank_name : string;
  bank_last4 : string;
  balance_amount : Z;
  balance_unit : string
}.

Record Card := {
  last4 : string;
  exp_date : string
}.

(** Modelled from the spec: the BankAccount read view that
    [Organization.retrieve_bank] gives back ([saas.models] is not among the
    sources): [bank_name], the masked suffix [last4], [balance_amount] and
    the currency code [balance_unit]. *)
Definition bank_read_view (a : BankAccount) : dict :=
  {[ "bank_name" := VStr (bank_name a);
     "last4" := VStr (bank_last4 a);
     "balance_amount" := VInt (balance_amount a);
     "balance_unit" := VStr (balance_unit a) ]}.

(** Modelled from the spec: the Card read view of [retrieve_card] and
    [update_card]: the masked suffix [last4] and the expiration date. *)
Definition card_read_view (c : Card) : dict :=
  {[ "last4" := VStr (last4 c); "exp_date" := VStr (exp_date c) ]}.

(** ** A reference processor *)

(** Modelled from the spec: [Organization] ([saas.models]), [get_broker],
    the processor backend ([saas.backends]) and the serializers
    ([saas.api.serializers]) are not among the sources.  This instance of
    [Collaborators] follows the spec's words: the processor is the source of
    truth for the card on file and the deposit account of each organization;
    a card token is opaque, issued by the processor and single-use;
    [delete_card] removes the payment method on file and deleting a card
    that does not exist is not an error; [update_card] raises a
    [ProcessorError] when the processor rejects the token; the PUT payload
    has a single required field [token]. *)
Module Reference.

Record processor := {
  cards_on_file : gmap string Card;
  deposit_accounts : gmap string BankAccount;
  issued_tokens : gmap string Card;
  site_broker : Organization
}.

(** Modelled from the spec: [Organization.retrieve_bank] gives the read view
    of the deposit account the processor holds for the provider; a failure
    of the processor surfaces as it is. *)
Definition retrieve_bank (self : Organization) (p : processor)
  : result backend_error dict * processor :=
  match deposit_accounts p !! slug self with
  | Some account => (Ok (bank_read_view account), p)
  | None => (Raise (BackendFailure "no deposit account"), p)
  end.

(** Modelled from the spec: [Organization.retrieve_card] gives the read view
    of the card on file, fetched from the processor. *)
Definition retrieve_card (self : Organization) (p : processor)
  : result backend_error dict * processor :=
  match cards_on_file p !! slug self with
  | Some card => (Ok (card_read_view card), p)
  | None => (Ok ∅, p)
  end.

(** Modelled from the spec: [Organization.update_card] attaches the payment
    method that the token stands for and gives its read view; a token the
    processor does not know is rejected with a [ProcessorError]; a token is
    used once. *)
Definition update_card (self : Organization) (token : value) (actor : User)
    (p : processor) : result backend_error dict * processor :=
  match token with
  | VStr t =>
      match issued_tokens p !! t with
      | Some card =>
          (Ok (card_read_view card),
           {| cards_on_file := <[slug self := card]> (cards_on_file p);
              deposit_accounts := deposit_accounts p;
              issued_tokens := delete t (issued_tokens p);
              site_broker := site_broker p |})
      | None => (Raise (ProcessorError "Card declined"), p)
      end
  | _ => (Raise (ProcessorError "Invalid token"), p)
  end.

(** Modelled from the spec: [Organization.delete_card] removes the payment
    method on file at the processor; deleting a card that does not exist is
    not an error. *)
Definition delete_card (self : Organization) (p : processor)
  : result backend_error () * processor :=
  (Ok (),
   {| cards_on_file := delete (slug self) (cards_on_file p);
      deposit_accounts := deposit_accounts p;
      issued_tokens := issued_tokens p;
      site_broker := site_broker p |}).

(** Modelled from the spec: [get_broker], the accessor of the site's
    broker. *)
Definition get_broker (p : processor)
  : result backend_error Organization * processor :=
  (Ok (site_broker p), p).

(** Modelled from the spec: the payment context of the processor backend,
    metadata (a client secret) the client needs to start replacing a card. *)
Definition get_payment_context
    (backend_of subscriber provider broker : Organization) (p : processor)
  : result backend_error value * processor :=
  (Ok (VDict [("STRIPE_INTENT_SECRET",
               VStr ("seti_" +:+ slug subscriber +:+ "_secret_" +:+ slug provider))]),
   p).

(** Lookup of a field in the items of a parsed JSON object. *)
Fixpoint field (items : list (string * value)) (name : string) : option value :=
  match items with
  | [] => None
  | (k, v) :: rest => if String.eqb k name then Some v else field rest name
  end.

Definition not_an_object : value :=
  VDict [("non_field_errors", VList [VStr "Invalid data. Expected a dictionary."])].

(** Modelled from the spec: [CardSerializer], the card read view; [last4]
    and [exp_date] are read-only, nothing is taken from the input. *)
Definition CardSerializer : Serializer :=
  {| run_validation d partial :=
       match d with
       | VDict _ => Ok ∅
       | _ => Raise not_an_object
       end |}.

(** Modelled from the spec: [CardTokenSerializer], the PUT payload with the
    single required field [token], a string; validation is structural
    (presence and type of the field). *)
Definition CardTokenSerializer : Serializer :=
  {| run_validation d partial :=
       match d with
       | VDict items =>
           match field items "token" with
           | Some (VStr t) => Ok {[ "token" := VStr t ]}
           | Some _ => Raise (VDict [("token", VList [VStr "Not a valid string."])])
           | None =>
               if partial then Ok ∅
               else Raise (VDict [("token", VList [VStr "This field is required."])])
           end
       | _ => Raise not_an_object
       end |}.

End Reference.

Definition reference : Collaborators :=
  {| state := Reference.processor;
     retrieve_bank := Reference.retrieve_bank;
     retrieve_card := Reference.retrieve_card;
     update_card := Reference.update_card;
     delete_card := Reference.delete_card;
     get_broker := Reference.get_broker;
     get_payment_context := Reference.get_payment_context;
     CardSerializer := Reference.CardSerializer;
     CardTokenSerializer := Reference.CardTokenSerializer |}.

(** ** The scenarios of the documentation *)

Module Scenario.
Definition xia : Organization := {| slug := "xia" |}.
Definition cowork : Organization := {| slug := "cowork" |}.
Definition djaodjin : Organization := {| slug := "djaodjin" |}.
Definition alice : User := {| username := "alice" |}.

Definition site : Reference.processor :=
  {| Reference.cards_on_file :=
       {[ "xia" := {| last4 := "4242"; exp_date := "01/2018" |} ]};
     Reference.deposit_accounts :=
       {[ "cowork" := {| bank_name := "Stripe Test Bank";
                         bank_last4 := "***-htrTZ";
                         balance_amount := 0;
                         balance_unit := "usd" |} ]};
     Reference.issued_tokens :=
       {[ "xyz" := {| last4 := "1234"; exp_date := "12/2019" |} ]};
     Reference.site_broker := djaodjin |}.

Definition start : world reference := @Build_world reference site [].

Definition http (verb : string) (query : gmap string string) (body : value) : Request :=
  {| method := verb; query_params := query; data := body; user := alice |}.

Definition on (org : Organization) (req : Request) : View :=
  {| organization := org; request := req |}.
End Scenario.

(** ** Vocabulary of the statements *)

(** The four fields of a deposit account. *)
Definition bank_fields : gset string :=
  {[ "bank_name"; "last4"; "balance_amount"; "balance_unit" ]}.

(** The fixed answer of DELETE. *)
Definition card_deleted : Response :=
  {| resp_data := {[ "detail" := VStr "Your credit card is no longer on file with us." ]};
     status := 200 |}.

(** The test on the [update] flag: the raw value of the query parameter,
    taken for its truth value. *)
Definition update_requested (req : Request) : bool :=
  truthy (query_get (query_params req) "update" (VBool false)).

(** The log shows a payment context fetched with [provider] and [broker] in
    those two roles. *)
Definition fetches_context_scoped_to
    (provider broker : Organization) (log : list call) : Prop :=
  ∃ backend_of subscriber,
    get_payment_context_call backend_of subscriber provider broker ∈ log.

(** The confirmation of a successful update (spelled as in the source). *)
Definition card_updated : string :=
  "Your credit card on file was sucessfully updated.".

(** What a PUT request means here: the method name, whatever its case. *)
Definition is_put (self : View) : Prop := lower (method (request self)) = "put".

(** The token handed to the processor: [validated_data.get('token')]. *)
Definition token_of (validated_data : dict) : value :=
  default VNone (validated_data !! "token").

(** A processor whose [update_card] answers with a [detail] of its own next
    to the card view. *)
Definition chatty_update_card (self : Organization) (token : value) (actor : User)
    (p : Reference.processor) : result backend_error dict * Reference.processor :=
  match Reference.update_card self token actor p with
  | (Ok new_card, p') => (Ok (<["detail" := VStr "card replaced"]> new_card), p')
  | other => other
  end.

Definition chatty : Collaborators :=
  {| state := Reference.processor;
     retrieve_bank := Reference.retrieve_bank;
     retrieve_card := Reference.retrieve_card;
     update_card := chatty_update_card;
     delete_card := Reference.delete_card;
     get_broker := Reference.get_broker;
     get_payment_context := Reference.get_payment_context;
     CardSerializer := Reference.CardSerializer;
     CardTokenSerializer := Reference.CardTokenSerializer |}.

(** A processor that answers a given number of calls and is out of reach
    after that: every later call raises the same [ProcessorError].  The
    state is the number of calls still answered. *)
Definition answer_while_up {A} (a : A) (left : nat) : result backend_error A * nat :=
  match left with
  | O => (Raise (ProcessorError "processor unreachable"), O)
  | S n => (Ok a, n)
  end.

Definition outage : Collaborators :=
  {| state := nat;
     retrieve_bank _ :=
       answer_while_up
         (bank_read_view {| bank_name := "Stripe Test Bank"; bank_last4 := "***-htrTZ";
                            balance_amount := 0; balance_unit := "usd" |});
     retrieve_card _ :=
       answer_while_up (card_read_view {| last4 := "1234"; exp_date := "12/2019" |});
     update_card _ _ _ :=
       answer_while_up (card_read_view {| last4 := "1234"; exp_date := "12/2019" |});
     delete_card _ := answer_while_up ();
     get_broker := answer_while_up Scenario.djaodjin;
     get_payment_context _ _ _ _ :=
       answer_while_up (VDict [("STRIPE_INTENT_SECRET", VStr "seti_secret")]);
     CardSerializer := Reference.CardSerializer;
     CardTokenSerializer := Reference.CardTokenSerializer |}.

(** The spellings of the method name that [lower] takes to ["put"]. *)
Definition put_spellings : list string :=
  ["put"; "puT"; "pUt"; "pUT"; "Put"; "PuT"; "PUt"; "PUT"].



(** ** Running a handler, one step at a time *)

Section Steps.
Context {C : Collaborators}.

Lemma bind_ok {A B} (m : M C A) (k : A → M C B) w a w' :
  m w = (Ok a, w') → bind m k w = k a w'.
Proof. unfold bind. by intros ->. Qed.

Lemma bind_raise {A B} (m : M C A) (k : A → M C B) w e w' :
  m w = (Raise e, w') → bind m k w = (Raise e, w').
Proof. unfold bind. by intros ->. Qed.

(** A call leaves exactly one entry in the log and the store its callee
    left, whether it returns or raises. *)
Lemma invoke_spec {A} (c : call)
    (f : state C → result backend_error A * state C) (w : world C) :
  invoke c f w =
    (match (f (store w)).1 with
     | Ok a => Ok a
     | Raise e => Raise (Uncaught e)
     end,
     {| store := (f (store w)).2; calls := calls w ++ [c] |}).
Proof. unfold invoke. by destruct (f (store w)) as [[a|e] s']. Qed.

Lemma invoke_ok {A} (c : call)
    (f : state C → result backend_error A * state C) w a s' :
  f (store w) = (Ok a, s') →
  invoke c f w = (Ok a, {| store := s'; calls := calls w ++ [c] |}).
Proof. intros Hf. by rewrite invoke_spec, Hf. Qed.

Lemma invoke_raise {A} (c : call)
    (f : state C → result backend_error A * state C) w e s' :
  f (store w) = (Raise e, s') →
  invoke (A:=A) c f w =
    (Raise (Uncaught e), {| store := s'; calls := calls w ++ [c] |}).
Proof. intros Hf. by rewrite invoke_spec, Hf. Qed.

(** A validation error is a client error, whatever its detail. *)
Lemma status_code_ValidationError (detail : value) :
  status_code (ValidationError detail) = 400.
Proof. by destruct detail. Qed.
End Steps.

(** ** GET /bank *)

(** C7.  GET /bank calls [organization.retrieve_bank()] and nothing else:
    the log grows by that one call and the store is the one the call left.
    When the call returns, its value is the body of the response, unchanged,
    with status 200; when it raises, the exception leaves the handler as it
    is. *)
Theorem bank_get_is_pass_through (C : Collaborators) (self : View) (w : world C) :
  RetrieveBankAPIView.get self w =
    (match (retrieve_bank C (organization self) (store w)).1 with
     | Ok bank => Ok {| resp_data := bank; status := 200 |}
     | Raise e => Raise (Uncaught e)
     end,
     {| store := (retrieve_bank C (organization self) (store w)).2;
        calls := calls w ++ [retrieve_bank_call (organization self)] |}).
Proof.
  unfold RetrieveBankAPIView.get, RetrieveBankAPIView.retrieve, bind.
  rewrite invoke_spec.
  by destruct (retrieve_bank C (organization self) (store w)) as [[bank|e] s'].
Qed.

Lemma dom_bank_read_view (a : BankAccount) : dom (bank_read_view a) = bank_fields.
Proof.
  unfold bank_read_view, bank_fields.
  rewrite !dom_insert_L, dom_singleton_L. set_solver.
Qed.

(** C8.  Whenever [organization.retrieve_bank()] gives the read view of a
    deposit account, the body of GET /bank has exactly the four fields
    [bank_name], [last4], [balance_amount] and [balance_unit], each with the
    value of the account. *)
Theorem bank_get_has_the_four_fields
    (C : Collaborators) (self : View) (w : world C)
    (account : BankAccount) (s' : state C) :
  retrieve_bank C (organization self) (store w) = (Ok (bank_read_view account), s') →
  ∃ resp,
    (RetrieveBankAPIView.get self w).1 = Ok resp
    ∧ status resp = 200
    ∧ dom (resp_data resp) = bank_fields
    ∧ resp_data resp !! "bank_name" = Some (VStr (bank_name account))
    ∧ resp_data resp !! "last4" = Some (VStr (bank_last4 account))
    ∧ resp_data resp !! "balance_amount" = Some (VInt (balance_amount account))
    ∧ resp_data resp !! "balance_unit" = Some (VStr (balance_unit account)).
Proof.
  intros Hbank.
  unfold RetrieveBankAPIView.get, RetrieveBankAPIView.retrieve.
  rewrite (bind_ok _ _ _ _ _ (invoke_ok _ _ _ _ _ Hbank)).
  eexists. split; [reflexivity|]. split; [reflexivity|]. cbn [resp_data Response_].
  split; [apply dom_bank_read_view|].
  unfold bank_read_view. by simplify_map_eq.
Qed.

Lemma bank_get_has_the_four_fields_witness :
  ∃ resp,
    (RetrieveBankAPIView.get (C:=reference)
       (Scenario.on Scenario.cowork (Scenario.http "GET" ∅ VNone)) Scenario.start).1
      = Ok resp
    ∧ resp_data resp !! "bank_name" = Some (VStr "Stripe Test Bank")
    ∧ resp_data resp !! "last4" = Some (VStr "***-htrTZ")
    ∧ resp_data resp !! "balance_amount" = Some (VInt 0)
    ∧ resp_data resp !! "balance_unit" = Some (VStr "usd").
Proof.
  destruct (bank_get_has_the_four_fields reference
              (Scenario.on Scenario.cowork (Scenario.http "GET" ∅ VNone))
              Scenario.start
              {| bank_name := "Stripe Test Bank"; bank_last4 := "***-htrTZ";
                 balance_amount := 0; balance_unit := "usd" |}
              Scenario.site eq_refl)
    as (resp & Hget & _ & _ & Hname & Hlast4 & Hamount & Hunit).
  exists resp. repeat split; assumption.
Defined.

(** On the reference processor every response of GET /bank has the four
    fields, and a provider with a deposit account gets a response. *)
Lemma reference_bank_get_shape (self : View) (w : world reference) :
  (∀ resp, (RetrieveBankAPIView.get self w).1 = Ok resp →
           dom (resp_data resp) = bank_fields)
  ∧ (is_Some (Reference.deposit_accounts (store w) !! slug (organization self)) →
     ∃ resp, (RetrieveBankAPIView.get self w).1 = Ok resp).
Proof.
  unfold RetrieveBankAPIView.get, RetrieveBankAPIView.retrieve, bind.
  rewrite invoke_spec. cbn. unfold Reference.retrieve_bank.
  destruct (Reference.deposit_accounts (store w) !! slug (organization self))
    as [account|]; cbn.
  - split; [|by eexists]. intros resp [= <-]. apply dom_bank_read_view.
  - split; [done|]. by intros [? ?].
Qed.

(** The example of the documentation: GET /api/billing/cowork/bank. *)
Example bank_get_scenario :
  (RetrieveBankAPIView.get (C:=reference)
     (Scenario.on Scenario.cowork (Scenario.http "GET" ∅ VNone)) Scenario.start).1
  = Ok {| resp_data :=
            {[ "bank_name" := VStr "Stripe Test Bank";
               "last4" := VStr "***-htrTZ";
               "balance_amount" := VInt 0;
               "balance_unit" := VStr "usd" ]};
          status := 200 |}.
Proof. reflexivity. Qed.

(** ** DELETE /card *)

Lemma destroy_spec (C : Collaborators) (self : View) (req : Request) (w : world C) :
  PaymentMethodDetailAPIView.destroy self req w =
    (match (delete_card C (organization self) (store w)).1 with
     | Ok _ => Ok card_deleted
     | Raise e => Raise (Uncaught e)
     end,
     {| store := (delete_card C (organization self) (store w)).2;
        calls := calls w ++ [delete_card_call (organization self)] |}).
Proof.
  unfold PaymentMethodDetailAPIView.destroy, bind. rewrite invoke_spec.
  by destruct (delete_card C (organization self) (store w)) as [[[]|e] s'].
Qed.

(** C5.  DELETE calls [organization.delete_card()] in every state, without
    looking at the card on file, and answers a call that returned with
    status 200 and the fixed detail message; the handler adds no error of its
    own.  On the reference processor, where deleting a card that is not on
    file is not an error, two DELETE requests in a row both get that same
    answer from any state, and no card is on file afterwards. *)
Theorem delete_is_unconditional_and_idempotent :
  (∀ (C : Collaborators) (self : View) (w : world C),
     PaymentMethodDetailAPIView.delete self w =
       (match (delete_card C (organization self) (store w)).1 with
        | Ok _ => Ok card_deleted
        | Raise e => Raise (Uncaught e)
        end,
        {| store := (delete_card C (organization self) (store w)).2;
           calls := calls w ++ [delete_card_call (organization self)] |}))
  ∧ (∀ (self : View) (w : world reference),
       let first := PaymentMethodDetailAPIView.delete self w in
       let second := PaymentMethodDetailAPIView.delete self first.2 in
       first.1 = Ok card_deleted
       ∧ second.1 = Ok card_deleted
       ∧ http_status first.1 = 200
       ∧ http_status second.1 = 200
       ∧ calls second.2 =
           (calls w ++ [delete_card_call (organization self);
                        delete_card_call (organization self)])%list
       ∧ Reference.cards_on_file (store second.2) !! slug (organization self) = None).
Proof.
  split.
  - intros C self w. apply destroy_spec.
  - intros self w. cbn zeta. unfold PaymentMethodDetailAPIView.delete.
    rewrite !destroy_spec. cbn.
    rewrite <- app_assoc. repeat split.
    apply lookup_delete_eq.
Qed.

(** The scenario of the documentation: [xia] has a card on file; after the
    first DELETE it has none, and the second DELETE answers the same. *)
Example delete_twice_scenario :
  let self := Scenario.on Scenario.xia (Scenario.http "DELETE" ∅ VNone) in
  let first := PaymentMethodDetailAPIView.delete (C:=reference) self Scenario.start in
  let second := PaymentMethodDetailAPIView.delete (C:=reference) self first.2 in
  Reference.cards_on_file (store Scenario.start) !! "xia"
    = Some {| last4 := "4242"; exp_date := "01/2018" |}
  ∧ Reference.cards_on_file (store first.2) !! "xia" = None
  ∧ first.1 = Ok card_deleted
  ∧ second.1 = Ok card_deleted.
Proof. vm_compute. repeat split. Qed.

(** ** GET /card *)

Lemma update_requested_iff (req : Request) :
  update_requested req = true ↔
  ∃ v, query_params req !! "update" = Some v ∧ v ≠ "".
Proof.
  unfold update_requested, query_get.
  destruct (query_params req !! "update") as [v|]; cbn.
  - rewrite negb_true_iff. split.
    + intros Hv. exists v. split; [done|]. intros ->. by rewrite String.eqb_refl in Hv.
    + intros (v' & [= <-] & Hne). by apply String.eqb_neq.
  - split; [done|]. by intros (v & ? & _).
Qed.

Lemma update_not_requested_iff (req : Request) :
  update_requested req = false ↔
  query_params req !! "update" = None ∨ query_params req !! "update" = Some "".
Proof.
  unfold update_requested, query_get.
  destruct (query_params req !! "update") as [v|]; cbn.
  - rewrite negb_false_iff, String.eqb_eq. split.
    + intros ->. by right.
    + by intros [|[= ->]].
  - split; [by left|done].
Qed.

Section RetrieveCard.
Context {C : Collaborators}.
Implicit Types (self : View) (req : Request) (w : world C).

(** Without the flag the handler makes the one call and returns its value. *)
Lemma retrieve_plain self req w :
  update_requested req = false →
  PaymentMethodDetailAPIView.retrieve self req w =
    (match (retrieve_card C (organization self) (store w)).1 with
     | Ok card => Ok {| resp_data := card; status := 200 |}
     | Raise e => Raise (Uncaught e)
     end,
     {| store := (retrieve_card C (organization self) (store w)).2;
        calls := calls w ++ [retrieve_card_call (organization self)] |}).
Proof.
  unfold update_requested, PaymentMethodDetailAPIView.retrieve, bind.
  intros ->. rewrite invoke_spec.
  by destruct (retrieve_card C (organization self) (store w)) as [[card|e] s'].
Qed.

(** With the flag, and when the three calls return. *)
Lemma retrieve_for_update self req w card s1 broker s2 context s3 :
  update_requested req = true →
  retrieve_card C (organization self) (store w) = (Ok card, s1) →
  get_broker C s1 = (Ok broker, s2) →
  get_payment_context C broker (organization self) broker broker s2 = (Ok context, s3) →
  PaymentMethodDetailAPIView.retrieve self req w =
    (Ok {| resp_data := <["processor" := context]> card; status := 200 |},
     {| store := s3;
        calls := calls w ++ [retrieve_card_call (organization self);
                             get_broker_call;
                             get_payment_context_call
                               broker (organization self) broker broker] |}).
Proof.
  unfold update_requested, PaymentMethodDetailAPIView.retrieve.
  intros -> Hcard Hbroker Hcontext.
  rewrite (bind_ok _ _ _ _ _ (invoke_ok _ _ _ _ _ Hcard)).
  erewrite bind_ok by (apply invoke_ok; exact Hbroker).
  erewrite bind_ok by (apply invoke_ok; exact Hcontext).
  unfold ret, Response_, dict_update, HTTP_200_OK. cbn.
  by rewrite <- !app_assoc.
Qed.

(** With the flag, every response carries the [processor] key. *)
Lemma retrieve_for_update_has_processor self req w resp :
  update_requested req = true →
  (PaymentMethodDetailAPIView.retrieve self req w).1 = Ok resp →
  is_Some (resp_data resp !! "processor").
Proof.
  unfold update_requested, PaymentMethodDetailAPIView.retrieve, bind, invoke.
  intros ->.
  destruct (retrieve_card C (organization self) (store w)) as [[card|e] s1];
    cbn; [|done].
  destruct (get_broker C s1) as [[broker|e] s2]; cbn; [|done].
  destruct (get_payment_context C broker (organization self) broker broker s2)
    as [[context|e] s3]; cbn; [|done].
  intros [= <-]. cbn. unfold dict_update. rewrite lookup_insert_eq. by eexists.
Qed.
End RetrieveCard.

(** C2, as stated, fails: on GET /billing/xia/card?update=1 the payment
    context is not fetched with the organization ([xia]) as provider and as
    broker; the organization is the subscriber of the call. *)
Lemma context_scoped_to_organization_counterexample :
  let self := Scenario.on Scenario.xia (Scenario.http "GET" {[ "update" := "1" ]} VNone) in
  update_requested (request self) = true
  ∧ calls (PaymentMethodDetailAPIView.get (C:=reference) self Scenario.start).2 =
      [retrieve_card_call Scenario.xia;
       get_broker_call;
       get_payment_context_call
         Scenario.djaodjin Scenario.xia Scenario.djaodjin Scenario.djaodjin]
  ∧ ¬ fetches_context_scoped_to (organization self) (organization self)
        (calls (PaymentMethodDetailAPIView.get (C:=reference) self Scenario.start).2).
Proof.
  cbn zeta. split; [reflexivity|]. split; [reflexivity|].
  intros (backend_of & subscriber & Hin).
  change (calls _) with
    [retrieve_card_call Scenario.xia;
     get_broker_call;
     get_payment_context_call
       Scenario.djaodjin Scenario.xia Scenario.djaodjin Scenario.djaodjin] in Hin.
  rewrite !elem_of_cons, elem_of_nil in Hin.
  destruct Hin as [?|[?|[?|[]]]]; discriminate.
Qed.

(** C2, amended.  On GET /card with a truthy [update] flag, once
    [organization.retrieve_card()] has returned, the handler asks
    [get_broker()] for the broker and fetches a payment context from the
    broker's processor backend for the organization, with the broker as
    provider and as broker; the context is merged into the card view under
    the [processor] key. *)
Theorem card_get_fetches_context_from_broker
    (C : Collaborators) (self : View) (w : world C)
    (card : dict) (s1 : state C) (broker : Organization) (s2 : state C)
    (context : value) (s3 : state C) :
  update_requested (request self) = true →
  retrieve_card C (organization self) (store w) = (Ok card, s1) →
  get_broker C s1 = (Ok broker, s2) →
  get_payment_context C broker (organization self) broker broker s2 = (Ok context, s3) →
  let out := PaymentMethodDetailAPIView.get self w in
  out.1 = Ok {| resp_data := <["processor" := context]> card; status := 200 |}
  ∧ store out.2 = s3
  ∧ calls out.2 =
      (calls w ++ [retrieve_card_call (organization self);
                   get_broker_call;
                   get_payment_context_call broker (organization self) broker broker])%list
  ∧ fetches_context_scoped_to broker broker (calls out.2)
  ∧ (∀ k, k ≠ "processor" → <["processor" := context]> card !! k = card !! k)
  ∧ <["processor" := context]> card !! "processor" = Some context.
Proof.
  intros Hflag Hcard Hbroker Hcontext. cbn zeta.
  unfold PaymentMethodDetailAPIView.get.
  rewrite (retrieve_for_update _ _ _ _ _ _ _ _ _ Hflag Hcard Hbroker Hcontext). cbn.
  repeat split.
  - exists broker, (organization self). set_solver.
  - intros k Hk. by rewrite lookup_insert_ne.
  - apply lookup_insert_eq.
Qed.

Lemma card_get_fetches_context_from_broker_witness :
  calls (PaymentMethodDetailAPIView.get (C:=reference)
           (Scenario.on Scenario.xia (Scenario.http "GET" {[ "update" := "1" ]} VNone))
           Scenario.start).2 =
    [retrieve_card_call Scenario.xia;
     get_broker_call;
     get_payment_context_call
       Scenario.djaodjin Scenario.xia Scenario.djaodjin Scenario.djaodjin].
Proof.
  exact (proj1 (proj2 (proj2
    (card_get_fetches_context_from_broker reference
       (Scenario.on Scenario.xia (Scenario.http "GET" {[ "update" := "1" ]} VNone))
       Scenario.start
       (card_read_view {| last4 := "4242"; exp_date := "01/2018" |})
       Scenario.site Scenario.djaodjin Scenario.site
       (VDict [("STRIPE_INTENT_SECRET", VStr "seti_xia_secret_djaodjin")])
       Scenario.site
       eq_refl eq_refl eq_refl eq_refl)))).
Defined.

(** C3.  Let [organization.retrieve_card()] return a card view, which has no
    [processor] field of its own.  Without an [update] query parameter the
    response of GET /card is that card view, status 200, and has no
    [processor] key; only [retrieve_card] was called.  With [update=1]
    every response has a [processor] key, and when the broker and the
    payment context are obtained the response is the card view with the
    context under that key. *)
Theorem card_get_processor_key_follows_update
    (C : Collaborators) (self : View) (w : world C) (card : dict) (s1 : state C) :
  retrieve_card C (organization self) (store w) = (Ok card, s1) →
  card !! "processor" = None →
  (query_params (request self) !! "update" = None →
     PaymentMethodDetailAPIView.get self w =
       (Ok {| resp_data := card; status := 200 |},
        {| store := s1; calls := calls w ++ [retrieve_card_call (organization self)] |})
     ∧ ∀ resp, (PaymentMethodDetailAPIView.get self w).1 = Ok resp →
               resp_data resp = card ∧ resp_data resp !! "processor" = None)
  ∧ (query_params (request self) !! "update" = Some "1" →
     (∀ resp, (PaymentMethodDetailAPIView.get self w).1 = Ok resp →
              is_Some (resp_data resp !! "processor"))
     ∧ ∀ broker s2 context s3,
         get_broker C s1 = (Ok broker, s2) →
         get_payment_context C broker (organization self) broker broker s2
           = (Ok context, s3) →
         (PaymentMethodDetailAPIView.get self w).1 =
           Ok {| resp_data := <["processor" := context]> card; status := 200 |}).
Proof.
  intros Hcard Hnone. unfold PaymentMethodDetailAPIView.get. split.
  - intros Habsent.
    assert (update_requested (request self) = false) as Hflag
      by (apply update_not_requested_iff; by left).
    rewrite (retrieve_plain _ _ _ Hflag), Hcard. cbn.
    split; [done|]. by intros resp [= <-].
  - intros Hone.
    assert (update_requested (request self) = true) as Hflag
      by (apply update_requested_iff; by exists "1").
    split.
    + intros resp. by apply retrieve_for_update_has_processor.
    + intros broker s2 context s3 Hbroker Hcontext.
      by rewrite (retrieve_for_update _ _ _ _ _ _ _ _ _ Hflag Hcard Hbroker Hcontext).
Qed.

Lemma card_get_processor_key_follows_update_witness :
  (PaymentMethodDetailAPIView.get (C:=reference)
     (Scenario.on Scenario.xia (Scenario.http "GET" ∅ VNone)) Scenario.start).1
    = Ok {| resp_data := {[ "last4" := VStr "4242"; "exp_date" := VStr "01/2018" ]};
            status := 200 |}
  ∧ (PaymentMethodDetailAPIView.get (C:=reference)
       (Scenario.on Scenario.xia (Scenario.http "GET" {[ "update" := "1" ]} VNone))
       Scenario.start).1
    = Ok {| resp_data :=
              {[ "processor" :=
                   VDict [("STRIPE_INTENT_SECRET", VStr "seti_xia_secret_djaodjin")];
                 "last4" := VStr "4242";
                 "exp_date" := VStr "01/2018" ]};
            status := 200 |}.
Proof.
  split.
  - exact (f_equal fst (proj1 (proj1
      (card_get_processor_key_follows_update reference
         (Scenario.on Scenario.xia (Scenario.http "GET" ∅ VNone)) Scenario.start
         (card_read_view {| last4 := "4242"; exp_date := "01/2018" |}) Scenario.site
         eq_refl eq_refl)
      eq_refl))).
  - exact (proj2 (proj2
      (card_get_processor_key_follows_update reference
         (Scenario.on Scenario.xia (Scenario.http "GET" {[ "update" := "1" ]} VNone))
         Scenario.start
         (card_read_view {| last4 := "4242"; exp_date := "01/2018" |}) Scenario.site
         eq_refl eq_refl)
      eq_refl)
      Scenario.djaodjin Scenario.site
      (VDict [("STRIPE_INTENT_SECRET", VStr "seti_xia_secret_djaodjin")])
      Scenario.site eq_refl eq_refl).
Defined.

(** C9.  The flag is the raw query-string value taken for its truth value.
    Let the card view (without a [processor] field), the broker and the
    payment context be obtained.  Then the response has the [processor] key
    for every non-empty value of [update], the string ["0"] included, and is
    the bare card view when [update] is absent or empty; so a response has
    the key exactly when [update] is present with a non-empty value. *)
Theorem card_get_update_flag_is_raw_truth_value
    (C : Collaborators) (self : View) (w : world C)
    (card : dict) (s1 : state C) (broker : Organization) (s2 : state C)
    (context : value) (s3 : state C) :
  retrieve_card C (organization self) (store w) = (Ok card, s1) →
  card !! "processor" = None →
  get_broker C s1 = (Ok broker, s2) →
  get_payment_context C broker (organization self) broker broker s2 = (Ok context, s3) →
  let with_processor : result exn Response :=
    Ok {| resp_data := <["processor" := context]> card; status := 200 |} in
  let bare : result exn Response := Ok {| resp_data := card; status := 200 |} in
  (∀ v, query_params (request self) !! "update" = Some v → v ≠ "" →
        (PaymentMethodDetailAPIView.get self w).1 = with_processor)
  ∧ (query_params (request self) !! "update" = Some "0" →
        (PaymentMethodDetailAPIView.get self w).1 = with_processor)
  ∧ (query_params (request self) !! "update" = None
     ∨ query_params (request self) !! "update" = Some "" →
        (PaymentMethodDetailAPIView.get self w).1 = bare)
  ∧ (∀ resp, (PaymentMethodDetailAPIView.get self w).1 = Ok resp →
       (is_Some (resp_data resp !! "processor")
        ↔ ∃ v, query_params (request self) !! "update" = Some v ∧ v ≠ "")).
Proof.
  intros Hcard Hnone Hbroker Hcontext. cbn zeta.
  unfold PaymentMethodDetailAPIView.get.
  assert (∀ v, query_params (request self) !! "update" = Some v → v ≠ "" →
            (PaymentMethodDetailAPIView.retrieve self (request self) w).1 =
              Ok {| resp_data := <["processor" := context]> card; status := 200 |})
    as Hpresent.
  { intros v Hv Hne.
    assert (update_requested (request self) = true) as Hflag
      by (apply update_requested_iff; by exists v).
    by rewrite (retrieve_for_update _ _ _ _ _ _ _ _ _ Hflag Hcard Hbroker Hcontext). }
  split; [exact Hpresent|]. split; [intros H0; by apply (Hpresent "0")|].
  split.
  - intros Habsent. apply update_not_requested_iff in Habsent.
    by rewrite (retrieve_plain _ _ _ Habsent), Hcard.
  - intros resp Hresp. rewrite <- update_requested_iff.
    destruct (update_requested (request self)) eqn:Hflag.
    + split; [done|]. intros _.
      by apply (retrieve_for_update_has_processor self (request self) w).
    + rewrite (retrieve_plain _ _ _ Hflag), Hcard in Hresp. cbn in Hresp.
      injection Hresp as <-. cbn. rewrite Hnone. split; [by intros [? ?]|done].
Qed.

Lemma card_get_update_flag_is_raw_truth_value_witness :
  (PaymentMethodDetailAPIView.get (C:=reference)
     (Scenario.on Scenario.xia (Scenario.http "GET" {[ "update" := "0" ]} VNone))
     Scenario.start).1
    = Ok {| resp_data :=
              {[ "processor" :=
                   VDict [("STRIPE_INTENT_SECRET", VStr "seti_xia_secret_djaodjin")];
                 "last4" := VStr "4242";
                 "exp_date" := VStr "01/2018" ]};
            status := 200 |}.
Proof.
  exact (proj1 (proj2
    (card_get_update_flag_is_raw_truth_value reference
       (Scenario.on Scenario.xia (Scenario.http "GET" {[ "update" := "0" ]} VNone))
       Scenario.start
       (card_read_view {| last4 := "4242"; exp_date := "01/2018" |}) Scenario.site
       Scenario.djaodjin Scenario.site
       (VDict [("STRIPE_INTENT_SECRET", VStr "seti_xia_secret_djaodjin")])
       Scenario.site eq_refl eq_refl eq_refl eq_refl))
    eq_refl).
Defined.

(** ** PUT /card *)

Section UpdateCard.
Context {C : Collaborators}.
Implicit Types (self : View) (w : world C).

Lemma get_serializer_class_put self :
  is_put self →
  PaymentMethodDetailAPIView.get_serializer_class (C:=C) self
    = CardTokenSerializer C.
Proof.
  unfold is_put, PaymentMethodDetailAPIView.get_serializer_class, self_request.
  by intros ->.
Qed.

(** A rejected body: the handler raises before it calls anything. *)
Lemma put_invalid self w errors :
  is_put self →
  run_validation (CardTokenSerializer C) (data (request self)) false = Raise errors →
  PaymentMethodDetailAPIView.put self w = (Raise (ValidationError errors), w).
Proof.
  intros Hput Hinvalid.
  unfold PaymentMethodDetailAPIView.put, PaymentMethodDetailAPIView.update.
  apply bind_raise. unfold is_valid.
  by rewrite (get_serializer_class_put _ Hput), Hinvalid.
Qed.

(** An accepted body: one call of [update_card], whose outcome decides. *)
Lemma put_valid self w validated_data :
  is_put self →
  run_validation (CardTokenSerializer C) (data (request self)) false
    = Ok validated_data →
  let token := token_of validated_data in
  let outcome :=
    update_card C (organization self) token (user (request self)) (store w) in
  PaymentMethodDetailAPIView.put self w =
    (match outcome.1 with
     | Ok new_card =>
         Ok {| resp_data := <["detail" := VStr card_updated]> new_card;
               status := 200 |}
     | Raise (ProcessorError reason) =>
         Raise (ValidationErrorExc (VList [VStr reason]))
     | Raise (BackendFailure cause) =>
         Raise (Uncaught (BackendFailure cause))
     end,
     {| store := outcome.2;
        calls := calls w ++ [update_card_call (organization self) token
                               (user (request self))] |}).
Proof.
  intros Hput Hvalid. cbn zeta.
  unfold PaymentMethodDetailAPIView.put, PaymentMethodDetailAPIView.update.
  erewrite bind_ok; last first.
  { unfold is_valid. rewrite (get_serializer_class_put _ Hput), Hvalid.
    reflexivity. }
  unfold bind, try_except_ProcessorError, self_request, token_of.
  rewrite invoke_spec.
  by destruct (update_card C (organization self)
                 (default VNone (validated_data !! "token"))
                 (user (request self)) (store w)) as [[new_card|[reason|cause]] s'].
Qed.
End UpdateCard.

(** C1.  On a PUT request whose body passed validation, an exception raised
    by [organization.update_card] is treated by its kind.  A
    [ProcessorError] becomes a validation error whose only message is the
    processor's reason: a 400, never a 500.  Any other exception is not
    caught: it leaves the handler as it is and is a 500. *)
Theorem put_maps_processor_error_to_validation_error
    (C : Collaborators) (self : View) (w : world C)
    (validated_data : dict) (e : backend_error) (s' : state C) :
  is_put self →
  run_validation (CardTokenSerializer C) (data (request self)) false
    = Ok validated_data →
  update_card C (organization self) (token_of validated_data)
    (user (request self)) (store w) = (Raise e, s') →
  let out := (PaymentMethodDetailAPIView.put self w).1 in
  match e with
  | ProcessorError reason =>
      out = Raise (ValidationError (VStr reason))
      ∧ out = Raise (ValidationErrorExc (VList [VStr reason]))
      ∧ http_status out = 400
      ∧ http_status out ≠ 500
  | BackendFailure _ =>
      out = Raise (Uncaught e)
      ∧ http_status out = 500
  end.
Proof.
  intros Hput Hvalid Hraise. cbn zeta.
  rewrite (put_valid _ _ _ Hput Hvalid). cbn zeta. rewrite Hraise.
  by destruct e.
Qed.

Lemma put_maps_processor_error_to_validation_error_witness :
  (PaymentMethodDetailAPIView.put (C:=reference)
     (Scenario.on Scenario.xia
        (Scenario.http "PUT" ∅ (VDict [("token", VStr "bad")])))
     Scenario.start).1
    = Raise (ValidationErrorExc (VList [VStr "Card declined"])).
Proof.
  exact (proj1 (proj2
    (put_maps_processor_error_to_validation_error reference
       (Scenario.on Scenario.xia
          (Scenario.http "PUT" ∅ (VDict [("token", VStr "bad")])))
       Scenario.start
       {[ "token" := VStr "bad" ]} (ProcessorError "Card declined") Scenario.site
       eq_refl eq_refl eq_refl))).
Defined.

(** C4.  On a PUT request whose body passed validation and whose token the
    processor accepts, the handler answers 200; the body is the card view
    that [organization.update_card] returned, [last4] and [exp_date]
    included as they are, plus [detail] set to the confirmation message,
    which is not empty.  [update_card] was called once, with the validated
    token and the requesting user. *)
Theorem put_accepted_token_returns_card_and_detail
    (C : Collaborators) (self : View) (w : world C)
    (validated_data new_card : dict) (s' : state C) :
  is_put self →
  run_validation (CardTokenSerializer C) (data (request self)) false
    = Ok validated_data →
  update_card C (organization self) (token_of validated_data)
    (user (request self)) (store w) = (Ok new_card, s') →
  ∃ resp,
    PaymentMethodDetailAPIView.put self w =
      (Ok resp,
       {| store := s';
          calls := calls w ++ [update_card_call (organization self)
                                 (token_of validated_data) (user (request self))] |})
    ∧ status resp = 200
    ∧ resp_data resp =
        <["detail" := VStr "Your credit card on file was sucessfully updated."]> new_card
    ∧ resp_data resp !! "last4" = new_card !! "last4"
    ∧ resp_data resp !! "exp_date" = new_card !! "exp_date"
    ∧ resp_data resp !! "detail" =
        Some (VStr "Your credit card on file was sucessfully updated.")
    ∧ "Your credit card on file was sucessfully updated." ≠ "".
Proof.
  intros Hput Hvalid Haccept.
  rewrite (put_valid _ _ _ Hput Hvalid). cbn zeta. rewrite Haccept. cbn.
  eexists. split; [reflexivity|]. cbn. unfold card_updated.
  repeat split; by simplify_map_eq.
Qed.

Lemma put_accepted_token_returns_card_and_detail_witness :
  ∃ resp,
    (PaymentMethodDetailAPIView.put (C:=reference)
       (Scenario.on Scenario.xia
          (Scenario.http "PUT" ∅ (VDict [("token", VStr "xyz")])))
       Scenario.start).1 = Ok resp
    ∧ status resp = 200
    ∧ resp_data resp =
        {[ "detail" := VStr "Your credit card on file was sucessfully updated.";
           "last4" := VStr "1234";
           "exp_date" := VStr "12/2019" ]}.
Proof.
  destruct (put_accepted_token_returns_card_and_detail reference
              (Scenario.on Scenario.xia
                 (Scenario.http "PUT" ∅ (VDict [("token", VStr "xyz")])))
              Scenario.start
              {[ "token" := VStr "xyz" ]}
              (card_read_view {| last4 := "1234"; exp_date := "12/2019" |})
              (Reference.update_card Scenario.xia (VStr "xyz") Scenario.alice
                 Scenario.site).2
              eq_refl eq_refl eq_refl)
    as (resp & Hput & Hstatus & Hbody & _).
  exists resp. split; [exact (f_equal fst Hput)|]. split; [exact Hstatus|exact Hbody].
Defined.

(** The token serializer of the reference processor accepts a body exactly
    when it is an object with a string under [token]; a missing body, a
    missing field and a field of another type are all rejected. *)
Lemma reference_token_serializer_accepts_iff (d : value) :
  (∃ validated_data,
     run_validation Reference.CardTokenSerializer d false = Ok validated_data)
  ↔ ∃ items t, d = VDict items ∧ Reference.field items "token" = Some (VStr t).
Proof.
  split.
  - intros [validated_data Hvalid]. destruct d as [| | | | |items]; try discriminate.
    cbn in Hvalid.
    destruct (Reference.field items "token") as [[| | |t| |]|] eqn:Hfield;
      try discriminate.
    by exists items, t.
  - intros (items & t & -> & Hfield). cbn. rewrite Hfield. by eexists.
Qed.

(** C6.  On a PUT request whose body the token serializer rejects, the
    handler raises the validation error (a 400) before anything else
    happens: [organization.update_card] is not called, no call at all is
    logged, and the processor-side state is the one before the request. *)
Theorem put_rejected_body_never_reaches_processor
    (C : Collaborators) (self : View) (w : world C) (errors : value) :
  is_put self →
  run_validation (CardTokenSerializer C) (data (request self)) false = Raise errors →
  let out := PaymentMethodDetailAPIView.put self w in
  out.1 = Raise (ValidationError errors)
  ∧ http_status out.1 = 400
  ∧ store out.2 = store w
  ∧ calls out.2 = calls w
  ∧ ∀ token actor, update_card_call (organization self) token actor ∈ calls out.2 →
                   update_card_call (organization self) token actor ∈ calls w.
Proof.
  intros Hput Hinvalid. cbn zeta. rewrite (put_invalid _ _ _ Hput Hinvalid). cbn.
  split; [done|]. split; [apply status_code_ValidationError|done].
Qed.

Lemma put_rejected_body_never_reaches_processor_witness :
  let missing := Scenario.on Scenario.xia (Scenario.http "PUT" ∅ (VDict [])) in
  let not_a_string :=
    Scenario.on Scenario.xia (Scenario.http "PUT" ∅ (VDict [("token", VInt 7)])) in
  ((PaymentMethodDetailAPIView.put (C:=reference) missing Scenario.start).1
     = Raise (ValidationErrorExc
                (VDict [("token", VList [VStr "This field is required."])]))
   ∧ calls (PaymentMethodDetailAPIView.put (C:=reference) missing Scenario.start).2 = [])
  ∧ ((PaymentMethodDetailAPIView.put (C:=reference) not_a_string Scenario.start).1
       = Raise (ValidationErrorExc
                  (VDict [("token", VList [VStr "Not a valid string."])]))
     ∧ calls (PaymentMethodDetailAPIView.put (C:=reference) not_a_string Scenario.start).2
         = []).
Proof.
  cbn zeta. split.
  - pose proof (put_rejected_body_never_reaches_processor reference
                  (Scenario.on Scenario.xia (Scenario.http "PUT" ∅ (VDict [])))
                  Scenario.start
                  (VDict [("token", VList [VStr "This field is required."])])
                  eq_refl eq_refl) as H.
    exact (conj (proj1 H) (proj1 (proj2 (proj2 (proj2 H))))).
  - pose proof (put_rejected_body_never_reaches_processor reference
                  (Scenario.on Scenario.xia
                     (Scenario.http "PUT" ∅ (VDict [("token", VInt 7)])))
                  Scenario.start
                  (VDict [("token", VList [VStr "Not a valid string."])])
                  eq_refl eq_refl) as H.
    exact (conj (proj1 H) (proj1 (proj2 (proj2 (proj2 H))))).
Defined.

(** C10.  On a successful PUT every key of the dictionary returned by
    [organization.update_card], [detail] apart, is in the body with the
    value it had; [detail] is the confirmation message, whatever the
    dictionary held under that key. *)
Theorem put_success_frames_card_and_overwrites_detail
    (C : Collaborators) (self : View) (w : world C)
    (validated_data new_card : dict) (s' : state C) :
  is_put self →
  run_validation (CardTokenSerializer C) (data (request self)) false
    = Ok validated_data →
  update_card C (organization self) (token_of validated_data)
    (user (request self)) (store w) = (Ok new_card, s') →
  ∃ resp,
    (PaymentMethodDetailAPIView.put self w).1 = Ok resp
    ∧ (∀ k, k ≠ "detail" → resp_data resp !! k = new_card !! k)
    ∧ resp_data resp !! "detail" = Some (VStr card_updated)
    ∧ (∀ old, new_card !! "detail" = Some old →
              resp_data resp !! "detail" = Some (VStr card_updated)).
Proof.
  intros Hput Hvalid Haccept.
  rewrite (put_valid _ _ _ Hput Hvalid). cbn zeta. rewrite Haccept. cbn.
  eexists. split; [reflexivity|]. cbn.
  split; [|split].
  - intros k Hk. by rewrite lookup_insert_ne.
  - apply lookup_insert_eq.
  - intros old _. apply lookup_insert_eq.
Qed.

Lemma put_success_frames_card_and_overwrites_detail_witness :
  ∃ resp,
    (PaymentMethodDetailAPIView.put (C:=chatty)
       (Scenario.on Scenario.xia
          (Scenario.http "PUT" ∅ (VDict [("token", VStr "xyz")])))
       (@Build_world chatty Scenario.site [])).1 = Ok resp
    ∧ resp_data resp !! "last4" = Some (VStr "1234")
    ∧ resp_data resp !! "exp_date" = Some (VStr "12/2019")
    ∧ resp_data resp !! "detail" = Some (VStr card_updated).
Proof.
  destruct (put_success_frames_card_and_overwrites_detail chatty
              (Scenario.on Scenario.xia
                 (Scenario.http "PUT" ∅ (VDict [("token", VStr "xyz")])))
              (@Build_world chatty Scenario.site [])
              {[ "token" := VStr "xyz" ]}
              (<["detail" := VStr "card replaced"]>
                 (card_read_view {| last4 := "1234"; exp_date := "12/2019" |}))
              (Reference.update_card Scenario.xia (VStr "xyz") Scenario.alice
                 Scenario.site).2
              eq_refl eq_refl eq_refl)
    as (resp & Hput & Hframe & Hdetail & _).
  exists resp. split; [exact Hput|].
  split; [exact (eq_trans (Hframe "last4" ltac:(discriminate)) eq_refl)|].
  split; [exact (eq_trans (Hframe "exp_date" ltac:(discriminate)) eq_refl)|].
  exact Hdetail.
Defined.

(** ** Further properties of [update] *)

Section UpdateAnyMethod.
Context {C : Collaborators}.
Implicit Types (self : View) (req : Request) (w : world C).

(** [update] on any method and any [partial]: the serializer chosen by
    [get_serializer_class] decides whether [update_card] is called at all,
    and the outcome of that one call decides the rest. *)
Lemma update_spec self req partial w :
  PaymentMethodDetailAPIView.update self req partial w =
    match run_validation (PaymentMethodDetailAPIView.get_serializer_class (C:=C) self)
            (data req) partial with
    | Raise errors => (Raise (ValidationError errors), w)
    | Ok validated_data =>
        let token := token_of validated_data in
        let outcome :=
          update_card C (organization self) token (user (request self)) (store w) in
        (match outcome.1 with
         | Ok new_card =>
             Ok {| resp_data := <["detail" := VStr card_updated]> new_card;
                   status := 200 |}
         | Raise (ProcessorError reason) =>
             Raise (ValidationErrorExc (VList [VStr reason]))
         | Raise (BackendFailure cause) =>
             Raise (Uncaught (BackendFailure cause))
         end,
         {| store := outcome.2;
            calls := calls w ++ [update_card_call (organization self) token
                                   (user (request self))] |})
    end.
Proof.
  unfold PaymentMethodDetailAPIView.update, is_valid.
  destruct (run_validation _ (data req) partial) as [validated_data|errors].
  - cbn zeta. erewrite bind_ok by reflexivity.
    unfold bind, try_except_ProcessorError, self_request, token_of.
    rewrite invoke_spec.
    by destruct (update_card C (organization self)
                   (default VNone (validated_data !! "token"))
                   (user (request self)) (store w)) as [[new_card|[reason|cause]] s'].
  - by apply bind_raise.
Qed.

Lemma get_serializer_class_not_put self :
  lower (method (request self)) ≠ "put" →
  PaymentMethodDetailAPIView.get_serializer_class (C:=C) self = CardSerializer C.
Proof.
  unfold PaymentMethodDetailAPIView.get_serializer_class, self_request, str_in.
  intros Hne. cbn. apply String.eqb_neq in Hne. by rewrite Hne.
Qed.
End UpdateAnyMethod.

(** X1.  Whatever the method, the [partial] flag and the body, [update]
    never lets a [ProcessorError] out: it returns 200 with the confirmation
    under [detail], or raises a validation error, or lets through a failure
    that is not a [ProcessorError]. *)
Theorem update_never_leaks_processor_error
    (C : Collaborators) (self : View) (req : Request) (partial : bool) (w : world C) :
  match (PaymentMethodDetailAPIView.update self req partial w).1 with
  | Ok resp =>
      status resp = 200 ∧ resp_data resp !! "detail" = Some (VStr card_updated)
  | Raise (ValidationErrorExc _) => True
  | Raise (Uncaught (BackendFailure _)) => True
  | Raise (Uncaught (ProcessorError _)) => False
  end.
Proof.
  rewrite update_spec.
  destruct (run_validation _ (data req) partial) as [validated_data|errors].
  - cbn zeta.
    destruct (update_card C (organization self) (token_of validated_data)
                (user (request self)) (store w)) as [[new_card|[reason|cause]] s'];
      cbn; try done.
    split; [done|apply lookup_insert_eq].
  - cbn. by destruct errors.
Qed.

(** X2.  [update] reached with a method other than PUT (PATCH, say) does not
    consult the token serializer: the body is validated by [CardSerializer],
    and when its validated data has no [token], [update_card] is called with
    [None] as the token; the outcome of that call is answered as for PUT. *)
Theorem update_without_put_passes_no_token
    (C : Collaborators) (self : View) (req : Request) (partial : bool)
    (w : world C) (validated_data : dict) :
  lower (method (request self)) ≠ "put" →
  run_validation (CardSerializer C) (data req) partial = Ok validated_data →
  validated_data !! "token" = None →
  let out := PaymentMethodDetailAPIView.update self req partial w in
  let outcome :=
    update_card C (organization self) VNone (user (request self)) (store w) in
  calls out.2 =
    (calls w ++ [update_card_call (organization self) VNone (user (request self))])%list
  ∧ store out.2 = outcome.2
  ∧ out.1 = match outcome.1 with
            | Ok new_card =>
                Ok {| resp_data := <["detail" := VStr card_updated]> new_card;
                      status := 200 |}
            | Raise (ProcessorError reason) =>
                Raise (ValidationErrorExc (VList [VStr reason]))
            | Raise (BackendFailure cause) =>
                Raise (Uncaught (BackendFailure cause))
            end.
Proof.
  intros Hmethod Hvalid Htoken. cbn zeta.
  rewrite update_spec, (get_serializer_class_not_put _ Hmethod), Hvalid.
  unfold token_of. rewrite Htoken. cbn. done.
Qed.

Lemma update_without_put_passes_no_token_witness :
  let self :=
    Scenario.on Scenario.xia
      (Scenario.http "PATCH" ∅ (VDict [("token", VStr "xyz")])) in
  let out :=
    PaymentMethodDetailAPIView.update (C:=reference) self (request self) true
      Scenario.start in
  calls out.2 = [update_card_call Scenario.xia VNone Scenario.alice]
  ∧ out.1 = Raise (ValidationErrorExc (VList [VStr "Invalid token"])).
Proof.
  cbn zeta.
  pose proof (update_without_put_passes_no_token reference
                (Scenario.on Scenario.xia
                   (Scenario.http "PATCH" ∅ (VDict [("token", VStr "xyz")])))
                (Scenario.http "PATCH" ∅ (VDict [("token", VStr "xyz")]))
                true Scenario.start ∅
                ltac:(discriminate) eq_refl eq_refl) as H.
  exact (conj (proj1 H) (proj2 (proj2 H))).
Defined.

(** X3.  [update] makes at most one call on its collaborators.  When the
    chosen serializer rejects the body nothing is called and the store is
    untouched.  Otherwise the one call is [update_card] on the view's
    organization, with the validated token and the user of [self.request],
    and the store is the one that call left, also when the call raised:
    nothing is rolled back. *)
Theorem update_calls_update_card_at_most_once
    (C : Collaborators) (self : View) (req : Request) (partial : bool) (w : world C) :
  let out := PaymentMethodDetailAPIView.update self req partial w in
  match run_validation (PaymentMethodDetailAPIView.get_serializer_class (C:=C) self)
          (data req) partial with
  | Raise errors =>
      out = (Raise (ValidationError errors), w)
  | Ok validated_data =>
      calls out.2 =
        (calls w ++ [update_card_call (organization self) (token_of validated_data)
                       (user (request self))])%list
      ∧ store out.2 =
          (update_card C (organization self) (token_of validated_data)
             (user (request self)) (store w)).2
  end.
Proof.
  cbn zeta. rewrite update_spec.
  by destruct (run_validation _ (data req) partial) as [validated_data|errors].
Qed.

(** A rejected token on the reference processor: the call is made, the
    answer is a 400, and the card on file is the one before. *)
Example put_rejected_token_scenario :
  let self :=
    Scenario.on Scenario.xia (Scenario.http "PUT" ∅ (VDict [("token", VStr "bad")])) in
  let out := PaymentMethodDetailAPIView.put (C:=reference) self Scenario.start in
  http_status out.1 = 400
  ∧ calls out.2 = [update_card_call Scenario.xia (VStr "bad") Scenario.alice]
  ∧ store out.2 = Scenario.site.
Proof. cbn zeta. repeat split. Qed.

(** ** Further properties of GET /card *)

(** X4.  GET /card has no handler for exceptions.  When
    [organization.retrieve_card()] raises, the exception leaves the view as
    it is, a [ProcessorError] included (a 500, where PUT would answer 400);
    and whatever the [update] flag says, neither the broker nor a payment
    context is asked for. *)
Theorem card_get_propagates_retrieve_card_failure
    (C : Collaborators) (self : View) (w : world C)
    (e : backend_error) (s1 : state C) :
  retrieve_card C (organization self) (store w) = (Raise e, s1) →
  PaymentMethodDetailAPIView.get self w =
    (Raise (Uncaught e),
     {| store := s1; calls := calls w ++ [retrieve_card_call (organization self)] |})
  ∧ http_status (PaymentMethodDetailAPIView.get self w).1 = 500.
Proof.
  intros Hraise.
  assert (PaymentMethodDetailAPIView.get self w =
            (Raise (Uncaught e),
             {| store := s1;
                calls := calls w ++ [retrieve_card_call (organization self)] |}))
    as Hget.
  { unfold PaymentMethodDetailAPIView.get, PaymentMethodDetailAPIView.retrieve.
    apply bind_raise. by apply invoke_raise. }
  by rewrite Hget.
Qed.

Lemma card_get_propagates_retrieve_card_failure_witness :
  PaymentMethodDetailAPIView.get (C:=outage)
    (Scenario.on Scenario.xia (Scenario.http "GET" {[ "update" := "1" ]} VNone))
    (@Build_world outage 0%nat [])
  = (Raise (Uncaught (ProcessorError "processor unreachable")),
     @Build_world outage 0%nat [retrieve_card_call Scenario.xia]).
Proof.
  exact (proj1
    (card_get_propagates_retrieve_card_failure outage
       (Scenario.on Scenario.xia (Scenario.http "GET" {[ "update" := "1" ]} VNone))
       (@Build_world outage 0%nat [])
       (ProcessorError "processor unreachable") 0%nat eq_refl)).
Defined.

(** X5.  On GET /card with a truthy [update] flag the card view alone is not
    answered: when [retrieve_card] has returned and then [get_broker] or
    [get_payment_context] raises, the request fails with that exception (a
    500) and the card view is dropped.  After a failure of [get_broker] no
    payment context is asked for. *)
Theorem card_get_for_update_fails_with_broker_or_context
    (C : Collaborators) (self : View) (w : world C) (card : dict) (s1 : state C) :
  update_requested (request self) = true →
  retrieve_card C (organization self) (store w) = (Ok card, s1) →
  (∀ e s2,
     get_broker C s1 = (Raise e, s2) →
     PaymentMethodDetailAPIView.get self w =
       (Raise (Uncaught e),
        {| store := s2;
           calls := calls w ++ [retrieve_card_call (organization self);
                                get_broker_call] |}))
  ∧ (∀ broker s2 e s3,
       get_broker C s1 = (Ok broker, s2) →
       get_payment_context C broker (organization self) broker broker s2
         = (Raise e, s3) →
       PaymentMethodDetailAPIView.get self w =
         (Raise (Uncaught e),
          {| store := s3;
             calls := calls w ++ [retrieve_card_call (organization self);
                                  get_broker_call;
                                  get_payment_context_call
                                    broker (organization self) broker broker] |})).
Proof.
  unfold update_requested, PaymentMethodDetailAPIView.get,
    PaymentMethodDetailAPIView.retrieve.
  intros Hflag Hcard. rewrite Hflag. split.
  - intros e s2 Hbroker.
    rewrite (bind_ok _ _ _ _ _ (invoke_ok _ _ _ _ _ Hcard)).
    erewrite bind_raise by (apply invoke_raise; exact Hbroker).
    cbn. by rewrite <- app_assoc.
  - intros broker s2 e s3 Hbroker Hcontext.
    rewrite (bind_ok _ _ _ _ _ (invoke_ok _ _ _ _ _ Hcard)).
    erewrite bind_ok by (apply invoke_ok; exact Hbroker).
    erewrite bind_raise by (apply invoke_raise; exact Hcontext).
    cbn. by rewrite <- !app_assoc.
Qed.

Lemma card_get_for_update_fails_with_broker_or_context_witness :
  let self :=
    Scenario.on Scenario.xia (Scenario.http "GET" {[ "update" := "1" ]} VNone) in
  (PaymentMethodDetailAPIView.get (C:=outage) self (@Build_world outage 1%nat [])
   = (Raise (Uncaught (ProcessorError "processor unreachable")),
      @Build_world outage 0%nat [retrieve_card_call Scenario.xia; get_broker_call]))
  ∧ (PaymentMethodDetailAPIView.get (C:=outage) self (@Build_world outage 2%nat [])
     = (Raise (Uncaught (ProcessorError "processor unreachable")),
        @Build_world outage 0%nat
          [retrieve_card_call Scenario.xia;
           get_broker_call;
           get_payment_context_call
             Scenario.djaodjin Scenario.xia Scenario.djaodjin Scenario.djaodjin])).
Proof.
  cbn zeta. split.
  - exact (proj1
      (card_get_for_update_fails_with_broker_or_context outage
         (Scenario.on Scenario.xia (Scenario.http "GET" {[ "update" := "1" ]} VNone))
         (@Build_world outage 1%nat [])
         (card_read_view {| last4 := "1234"; exp_date := "12/2019" |}) 0%nat
         eq_refl eq_refl)
      (ProcessorError "processor unreachable") 0%nat eq_refl).
  - exact (proj2
      (card_get_for_update_fails_with_broker_or_context outage
         (Scenario.on Scenario.xia (Scenario.http "GET" {[ "update" := "1" ]} VNone))
         (@Build_world outage 2%nat [])
         (card_read_view {| last4 := "1234"; exp_date := "12/2019" |}) 1%nat
         eq_refl eq_refl)
      Scenario.djaodjin 0%nat (ProcessorError "processor unreachable") 0%nat
      eq_refl eq_refl).
Defined.

(** ** The calls of a request *)


(** ** The serializer of a request *)

Lemma ascii_lower_hits (a : ascii) :
  Ascii.eqb (ascii_lower a) "p" = (Ascii.eqb a "p" || Ascii.eqb a "P")%bool
  ∧ Ascii.eqb (ascii_lower a) "u" = (Ascii.eqb a "u" || Ascii.eqb a "U")%bool
  ∧ Ascii.eqb (ascii_lower a) "t" = (Ascii.eqb a "t" || Ascii.eqb a "T")%bool.
Proof. by destruct a as [[] [] [] [] [] [] [] []]. Qed.

(** [method.lower() in ('put',)] holds for the eight spellings of PUT and
    for nothing else. *)
Lemma str_in_lower_put (m : string) :
  str_in (lower m) ["put"] = str_in m put_spellings.
Proof.
  unfold str_in, put_spellings.
  destruct m as [|a [|b [|c [|d rest]]]]; try reflexivity.
  - cbn. by destruct (Ascii.eqb (ascii_lower a) "p"), (Ascii.eqb a "p"),
      (Ascii.eqb a "P").
  - cbn. destruct (ascii_lower_hits a) as (-> & _ & _).
    destruct (Ascii.eqb a "p"), (Ascii.eqb a "P"); cbn; try reflexivity;
      by destruct (Ascii.eqb (ascii_lower b) "u"), (Ascii.eqb b "u"),
        (Ascii.eqb b "U").
  - cbn. destruct (ascii_lower_hits a) as (-> & _ & _).
    destruct (ascii_lower_hits b) as (_ & -> & _).
    destruct (ascii_lower_hits c) as (_ & _ & ->).
    by destruct (Ascii.eqb a "p"), (Ascii.eqb a "P"), (Ascii.eqb b "u"),
      (Ascii.eqb b "U"), (Ascii.eqb c "t"), (Ascii.eqb c "T").
  - cbn. destruct (ascii_lower_hits a) as (-> & _ & _).
    destruct (ascii_lower_hits b) as (_ & -> & _).
    destruct (ascii_lower_hits c) as (_ & _ & ->).
    by destruct (Ascii.eqb a "p"), (Ascii.eqb a "P"), (Ascii.eqb b "u"),
      (Ascii.eqb b "U"), (Ascii.eqb c "t"), (Ascii.eqb c "T").
Qed.

(** X7.  [get_serializer_class] gives the token serializer for the method
    PUT in any letter case (["PUT"], ["put"], ["Put"], ...) and
    [CardSerializer], the class attribute, for every other method name:
    GET, DELETE and PATCH among them, and also the empty name, a longer name
    such as ["PUTS"] or a name with blanks around it. *)
Theorem get_serializer_class_by_method (C : Collaborators) (self : View) :
  PaymentMethodDetailAPIView.get_serializer_class (C:=C) self =
    (if str_in (method (request self)) put_spellings
     then CardTokenSerializer C
     else CardSerializer C)
  ∧ (method (request self) ∈ ["GET"; "HEAD"; "POST"; "PATCH"; "DELETE"; "OPTIONS";
                              ""; "PUTS"; " PUT"; "PUT "] →
     PaymentMethodDetailAPIView.get_serializer_class (C:=C) self = CardSerializer C).
Proof.
  assert (PaymentMethodDetailAPIView.get_serializer_class (C:=C) self =
            (if str_in (method (request self)) put_spellings
             then CardTokenSerializer C
             else CardSerializer C)) as Hclass.
  { unfold PaymentMethodDetailAPIView.get_serializer_class, self_request,
      PaymentMethodDetailAPIView.serializer_class.
    by rewrite str_in_lower_put. }
  split; [exact Hclass|].
  intros Hmethod. rewrite Hclass.
  rewrite !elem_of_cons, elem_of_nil in Hmethod.
  destruct Hmethod as [->|[->|[->|[->|[->|[->|[->|[->|[->|[->|[]]]]]]]]]]];
    reflexivity.
Qed.

(** ** The card view in the answer of GET /card *)

(** X8.  Whatever the [update] flag, an answer of GET /card has every field
    of the card view that [organization.retrieve_card()] returned, with its
    value, save [processor]: no field is dropped or changed, and the only
    key the view may add or replace is [processor]. *)
Theorem card_get_keeps_card_fields
    (C : Collaborators) (self : View) (w : world C)
    (card : dict) (s1 : state C) (resp : Response) :
  retrieve_card C (organization self) (store w) = (Ok card, s1) →
  (PaymentMethodDetailAPIView.get self w).1 = Ok resp →
  status resp = 200
  ∧ (∀ k, k ≠ "processor" → resp_data resp !! k = card !! k)
  ∧ dom card ⊆ dom (resp_data resp)
  ∧ dom (resp_data resp) ⊆ dom card ∪ {[ "processor" ]}.
Proof.
  intros Hcard.
  unfold PaymentMethodDetailAPIView.get, PaymentMethodDetailAPIView.retrieve,
    bind, invoke.
  rewrite Hcard. cbn.
  destruct (truthy _); cbn.
  - destruct (get_broker C s1) as [[broker|e] s2]; cbn; [|done].
    destruct (get_payment_context C broker (organization self) broker broker s2)
      as [[context|e] s3]; cbn; [|done].
    intros [= <-]. cbn. unfold dict_update.
    split; [done|]. split; [intros k Hk; by rewrite lookup_insert_ne|].
    rewrite dom_insert_L. split; [apply union_subseteq_r|].
    by rewrite (comm_L (∪)).
  - intros [= <-]. cbn. split; [done|]. split; [done|]. split; [done|].
    apply union_subseteq_l.
Qed.

Lemma card_get_keeps_card_fields_witness :
  ∃ resp,
    (PaymentMethodDetailAPIView.get (C:=reference)
       (Scenario.on Scenario.xia (Scenario.http "GET" {[ "update" := "yes" ]} VNone))
       Scenario.start).1 = Ok resp
    ∧ resp_data resp !! "last4" = Some (VStr "4242")
    ∧ resp_data resp !! "exp_date" = Some (VStr "01/2018").
Proof.
  eexists. split; [reflexivity|].
  pose proof (card_get_keeps_card_fields reference
                (Scenario.on Scenario.xia
                   (Scenario.http "GET" {[ "update" := "yes" ]} VNone))
                Scenario.start
                (card_read_view {| last4 := "4242"; exp_date := "01/2018" |})
                Scenario.site _ eq_refl eq_refl) as (_ & Hkeep & _).
  split.
  - exact (eq_trans (Hkeep "last4" ltac:(discriminate)) eq_refl).
  - exact (eq_trans (Hkeep "exp_date" ltac:(discriminate)) eq_refl).
Defined.
